(** * cali: appointment model, persistence gateway and REST handlers

    A shallow embedding of the Go packages [models], [db] and [api] of
    the cali appointment scheduler, and the properties of validation,
    of the SQLite-backed gateway and of the HTTP handlers.

    Conventions.
    - [int64] values are [Z]; the only place where the 64-bit range
      matters is [strconv.ParseInt] and the AUTOINCREMENT row id.
    - A Go [error] is a value of type [error]; the Go [nil] error is
      [None] in an [option error].
    - A method with a pointer receiver or pointer argument that it
      writes to returns the written struct next to its Go result.
    - The database is an explicit [Store] value passed through every
      gateway call; the reading of the store clock used by
      [CURRENT_TIMESTAMP] is an explicit argument [now].
    - A TIMESTAMP column holds an instant, and the comparisons of a
      statement ([>], [>=], [<=], ORDER BY) are the order of instants;
      the textual form in which the driver writes a [time.Time], and
      with it the time zone offset of the value, is not modelled.
    - Faults of the store other than the constraints of the schema
      (I/O, a missing table, a closed connection) are not modelled:
      a statement fails only where the schema makes it fail. *)

From Stdlib Require Import ZArith List String Ascii Bool Lia.
From Stdlib Require Import Sorting.Sorted Sorting.Permutation.
Import ListNotations.

Local Open Scope string_scope.
Local Open Scope Z_scope.

(** ** Package [time]: the part of [time.Time] the program uses *)

Module time.

(** An instant: seconds since January 1, year 1 00:00:00 UTC and the
    nanoseconds within that second, the two quantities [Time.sec()]
    and [Time.nsec()] on which every comparison of the Go package is
    defined for values without a monotonic clock reading, as are all
    values decoded from JSON or scanned from the store.  The zero value
    of [time.Time] has both equal to 0. *)
Record Time : Type := mkTime { sec : Z; nsec : Z }.

Definition zero : Time := mkTime 0 0.

(** [func (t Time) IsZero() bool] *)
Definition IsZero (t : Time) : bool :=
  (sec t =? 0) && (nsec t =? 0).

(** [func (t Time) Before(u Time) bool] *)
Definition Before (t u : Time) : bool :=
  (sec t <? sec u) || ((sec t =? sec u) && (nsec t <? nsec u)).

(** [func (t Time) After(u Time) bool] *)
Definition After (t u : Time) : bool :=
  (sec t >? sec u) || ((sec t =? sec u) && (nsec t >? nsec u)).

(** [func (t Time) Equal(u Time) bool] *)
Definition Equal (t u : Time) : bool :=
  (sec t =? sec u) && (nsec t =? nsec u).

End time.

Import time.

(** ** Errors *)

(** The constraints of the schema whose violation fails a statement. *)
Inductive constraint : Type :=
| CheckEndAfterStart      (* CHECK (end_time > start_time) *)
| ForeignKeyUser          (* FOREIGN KEY (user_id) REFERENCES users(id) *)
| RowidFull.              (* AUTOINCREMENT ran out of row ids *)

(** The Go error values the three packages produce.  [Errorf msg e]
    is [fmt.Errorf(msg + ": %w", e)]; [ErrorNew msg] is an error made
    from a bare message. *)
Inductive error : Type :=
| ErrEmptyTitle
| ErrInvalidTime
| ErrEndTimeBeforeStart
| ErrNoRows                          (* sql.ErrNoRows *)
| ErrConstraint (c : constraint)     (* constraint failure of the driver *)
| ErrorNew (msg : string)
| Errorf (msg : string) (cause : error).

(** Outcome of a statement sent to the driver. *)
Inductive result (A : Type) : Type :=
| Ok (x : A)
| Err (e : error).
Arguments Ok {A} x.
Arguments Err {A} e.

(** ** Package [models] *)

Module models.

Record User : Type := mkUser {
  User_ID : Z;
  Username : string;
  User_CreatedAt : Time
}.

Record Appointment : Type := mkAppointment {
  ID : Z;
  UserID : Z;
  Title : string;
  Description : string;
  StartTime : Time;
  EndTime : Time;
  CreatedAt : Time;
  UpdatedAt : Time
}.

(** [func (a *Appointment) Validate() error] *)
Definition Validate (a : Appointment) : option error :=
  if String.eqb (Title a) "" then Some ErrEmptyTitle
  else if IsZero (StartTime a) || IsZero (EndTime a) then Some ErrInvalidTime
  else if Before (EndTime a) (StartTime a) then Some ErrEndTimeBeforeStart
  else None.

End models.

Import models.

(** ** Package [db]: the SQLite store and the gateway over it *)

Module db.

(** The database file as [InitSchema] lays it out: the two tables, the
    AUTOINCREMENT counter that SQLite keeps for [appointments] in
    [sqlite_sequence], and the [foreign_keys] setting of the
    connection, on which the enforcement of the FOREIGN KEY clause
    depends. *)
Record Store : Type := mkStore {
  foreign_keys : bool;
  users : list User;
  appointments : list Appointment;
  sqlite_sequence : Z
}.

Definition max_int64 : Z := 9223372036854775807.

(** [CURRENT_TIMESTAMP]: the clock reading in whole seconds. *)
Definition CURRENT_TIMESTAMP (now : Time) : Time := mkTime (sec now) 0.

(** Comparison of two TIMESTAMP values inside a statement. *)
Definition sql_gt (x y : Time) : bool := After x y.
Definition sql_ge (x y : Time) : bool := negb (Before x y).
Definition sql_le (x y : Time) : bool := negb (After x y).

(** [CHECK (end_time > start_time)] *)
Definition check_constraint (start_time end_time : Time) : bool :=
  sql_gt end_time start_time.

(** [FOREIGN KEY (user_id) REFERENCES users(id)], enforced only when
    the connection has foreign keys switched on. *)
Definition foreign_key_ok (s : Store) (user_id : Z) : bool :=
  negb (foreign_keys s) || existsb (fun u => User_ID u =? user_id) (users s).

(** Largest row id in the table, 0 when it is empty. *)
Fixpoint max_rowid (rows : list Appointment) : Z :=
  match rows with
  | [] => 0
  | r :: rest => Z.max (ID r) (max_rowid rest)
  end.

(** Row id an AUTOINCREMENT insert would take: one more than the
    largest id the table holds or ever held. *)
Definition next_rowid (s : Store) : Z :=
  Z.max (sqlite_sequence s) (max_rowid (appointments s)) + 1.

(** [InitSchema]: [CREATE TABLE IF NOT EXISTS] for both tables.  A new
    file ([None]) gets two empty tables; existing tables are kept. *)
Definition InitSchema (file : option Store) (fk : bool) : Store :=
  match file with
  | Some s => s
  | None => mkStore fk [] [] 0
  end.

(** [INSERT INTO appointments (user_id, title, description, start_time,
    end_time) VALUES (?, ?, ?, ?, ?) RETURNING id, created_at,
    updated_at] *)
Definition insert_returning (s : Store) (now : Time)
    (user_id : Z) (title description : string) (start_time end_time : Time)
    : result (Store * (Z * Time * Time)) :=
  let id := next_rowid s in
  if id >? max_int64 then Err (ErrConstraint RowidFull)
  else if negb (check_constraint start_time end_time)
  then Err (ErrConstraint CheckEndAfterStart)
  else if negb (foreign_key_ok s user_id)
  then Err (ErrConstraint ForeignKeyUser)
  else
    let ts := CURRENT_TIMESTAMP now in
    let row := mkAppointment id user_id title description
                 start_time end_time ts ts in
    Ok (mkStore (foreign_keys s) (users s) (appointments s ++ [row]) id,
        (id, ts, ts)).

(** [SELECT ... FROM appointments WHERE id = ?] read with [QueryRow]:
    the first row, or [sql.ErrNoRows]. *)
Definition select_by_id (s : Store) (id : Z) : result Appointment :=
  match find (fun r => ID r =? id) (appointments s) with
  | Some r => Ok r
  | None => Err ErrNoRows
  end.

(** [ORDER BY start_time ASC] *)
Fixpoint insert_by_start (r : Appointment) (rows : list Appointment)
    : list Appointment :=
  match rows with
  | [] => [r]
  | x :: rest =>
      if sql_le (StartTime r) (StartTime x) then r :: x :: rest
      else x :: insert_by_start r rest
  end.

Fixpoint order_by_start_time (rows : list Appointment) : list Appointment :=
  match rows with
  | [] => []
  | r :: rest => insert_by_start r (order_by_start_time rest)
  end.

(** [WHERE user_id = ? AND start_time >= ? AND end_time <= ?] *)
Definition in_range (userID : Z) (start_ end_ : Time) (r : Appointment) : bool :=
  (UserID r =? userID) && sql_ge (StartTime r) start_ && sql_le (EndTime r) end_.

(** [SELECT ... WHERE user_id = ? AND start_time >= ? AND end_time <= ?
    ORDER BY start_time ASC] *)
Definition select_range (s : Store) (userID : Z) (start_ end_ : Time)
    : result (list Appointment) :=
  Ok (order_by_start_time (filter (in_range userID start_ end_) (appointments s))).

(** [WHERE id = ? AND user_id = ?] *)
Definition owned (id userID : Z) (r : Appointment) : bool :=
  (ID r =? id) && (UserID r =? userID).

(** [UPDATE appointments SET title = ?, description = ?, start_time = ?,
    end_time = ?, updated_at = CURRENT_TIMESTAMP WHERE id = ? AND
    user_id = ? RETURNING updated_at] read with [QueryRow]. *)
Definition update_returning (s : Store) (now : Time)
    (title description : string) (start_time end_time : Time) (id userID : Z)
    : result (Store * Time) :=
  if existsb (owned id userID) (appointments s) then
    if check_constraint start_time end_time then
      let ts := CURRENT_TIMESTAMP now in
      let set r :=
        if owned id userID r
        then mkAppointment (ID r) (UserID r) title description
               start_time end_time (CreatedAt r) ts
        else r in
      Ok (mkStore (foreign_keys s) (users s) (map set (appointments s))
            (sqlite_sequence s), ts)
    else Err (ErrConstraint CheckEndAfterStart)
  else Err ErrNoRows.

(** [DELETE FROM appointments WHERE id = ? AND user_id = ?] run with
    [Exec]; the second component is [RowsAffected]. *)
Definition delete_exec (s : Store) (id userID : Z) : result (Store * Z) :=
  let keep := filter (fun r => negb (owned id userID r)) (appointments s) in
  let gone := filter (owned id userID) (appointments s) in
  Ok (mkStore (foreign_keys s) (users s) keep (sqlite_sequence s),
      Z.of_nat (List.length gone)).

(** [func (d *Database) CreateAppointment(a *models.Appointment) error]:
    the store after the call, [*a] after the call, and the error. *)
Definition CreateAppointment (s : Store) (now : Time) (a : Appointment)
    : Store * Appointment * option error :=
  match insert_returning s now (UserID a) (Title a) (Description a)
          (StartTime a) (EndTime a) with
  | Ok (s', (id, created_at, updated_at)) =>
      (s',
       mkAppointment id (UserID a) (Title a) (Description a)
         (StartTime a) (EndTime a) created_at updated_at,
       None)
  | Err e => (s, a, Some (Errorf "failed to create appointment" e))
  end.

(** [func (d *Database) GetAppointment(id int64)], returning the pointer
    ([None] for [nil]) and the error. *)
Definition GetAppointment (s : Store) (id : Z)
    : option Appointment * option error :=
  match select_by_id s id with
  | Ok r =>
      (Some (mkAppointment (ID r) (UserID r) (Title r) (Description r)
               (StartTime r) (EndTime r) (CreatedAt r) (UpdatedAt r)),
       None)
  | Err ErrNoRows => (None, None)
  | Err e => (None, Some (Errorf "failed to get appointment" e))
  end.

(** The [for rows.Next()] loop of [ListAppointments]: every row is
    scanned into a new struct and appended. *)
Fixpoint scan_rows (rows appointments : list Appointment) : list Appointment :=
  match rows with
  | [] => appointments
  | r :: rest =>
      let a := mkAppointment (ID r) (UserID r) (Title r) (Description r)
                 (StartTime r) (EndTime r) (CreatedAt r) (UpdatedAt r) in
      scan_rows rest (appointments ++ [a])
  end.

(** [func (d *Database) ListAppointments(userID int64, start, end time.Time)
    ([]*models.Appointment, error)] *)
Definition ListAppointments (s : Store) (userID : Z) (start_ end_ : Time)
    : list Appointment * option error :=
  match select_range s userID start_ end_ with
  | Err e => ([], Some (Errorf "failed to list appointments" e))
  | Ok rows => (scan_rows rows [], None)
  end.

(** [func (d *Database) UpdateAppointment(a *models.Appointment) error] *)
Definition UpdateAppointment (s : Store) (now : Time) (a : Appointment)
    : Store * Appointment * option error :=
  match update_returning s now (Title a) (Description a)
          (StartTime a) (EndTime a) (ID a) (UserID a) with
  | Ok (s', updated_at) =>
      (s',
       mkAppointment (ID a) (UserID a) (Title a) (Description a)
         (StartTime a) (EndTime a) (CreatedAt a) updated_at,
       None)
  | Err e => (s, a, Some (Errorf "failed to update appointment" e))
  end.

(** The error of the zero-rows branch of [DeleteAppointment]. *)
Definition ErrNotFoundOrUnauthorized : error :=
  ErrorNew "appointment not found or unauthorized".

(** [func (d *Database) DeleteAppointment(id, userID int64) error] *)
Definition DeleteAppointment (s : Store) (id userID : Z)
    : Store * option error :=
  match delete_exec s id userID with
  | Err e => (s, Some (Errorf "failed to delete appointment" e))
  | Ok (s', affected) =>
      if affected =? 0 then (s', Some ErrNotFoundOrUnauthorized)
      else (s', None)
  end.

(** A gateway call as a value, and a run of such calls from a store. *)
Inductive op : Type :=
| OpCreate (now : Time) (a : Appointment)
| OpUpdate (now : Time) (a : Appointment)
| OpDelete (id userID : Z).

Definition step (s : Store) (o : op) : Store :=
  match o with
  | OpCreate now a => fst (fst (CreateAppointment s now a))
  | OpUpdate now a => fst (fst (UpdateAppointment s now a))
  | OpDelete id userID => fst (DeleteAppointment s id userID)
  end.

Definition run (s : Store) (ops : list op) : Store := fold_left step ops s.

End db.

Import db.

(** ** Package [api]: the request handlers *)

Module api.

(** [strconv.ParseInt(s, 10, 64)]; [None] stands for a non-nil error
    (syntax or range), which is all the handlers look at. *)
Definition digit_of (c : ascii) : option Z :=
  let n := Z.of_nat (nat_of_ascii c) in
  if (48 <=? n) && (n <=? 57) then Some (n - 48) else None.

Fixpoint parse_digits (s : string) (acc : Z) : option Z :=
  match s with
  | EmptyString => Some acc
  | String c rest =>
      match digit_of c with
      | Some d => parse_digits rest (acc * 10 + d)
      | None => None
      end
  end.

Definition ParseInt (s : string) : option Z :=
  match s with
  | EmptyString => None
  | String c rest =>
      let neg := Ascii.eqb c "-" in
      let digits := if Ascii.eqb c "+" || neg then rest else s in
      match digits with
      | EmptyString => None
      | _ =>
          match parse_digits digits 0 with
          | None => None
          | Some un =>
              let cutoff := 9223372036854775808 in
              if negb neg && (un >=? cutoff) then None
              else if neg && (un >? cutoff) then None
              else Some (if neg then - un else un)
          end
      end
  end.

Definition StatusOK : Z := 200.
Definition StatusCreated : Z := 201.
Definition StatusNoContent : Z := 204.
Definition StatusBadRequest : Z := 400.
Definition StatusNotFound : Z := 404.
Definition StatusInternalServerError : Z := 500.

(** [type createAppointmentRequest struct] *)
Record createAppointmentRequest : Type := mkRequest {
  req_Title : string;
  req_Description : string;
  req_StartTime : Time;
  req_EndTime : Time
}.

(** What a handler reads of [*http.Request]: the route variable
    [mux.Vars(r)["id"]], the raw query string, and the outcome of
    [json.NewDecoder(r.Body).Decode(&req)] ([None] when it errors). *)
Record Request : Type := mkHTTPRequest {
  vars_id : string;
  RawQuery : string;
  Body : option createAppointmentRequest
}.

(** The value handed to [respondJSON] as [data]. *)
Inductive data : Type :=
| NoData                                   (* nil *)
| AppointmentSlice (l : list Appointment)  (* []models.Appointment *)
| AppointmentPtr (a : Appointment)         (* *models.Appointment *)
| ErrorMap (message : string).             (* map[string]string{"error": message} *)

(** What a handler writes to the [http.ResponseWriter]. *)
Record Response : Type := mkResponse {
  ContentType : string;
  status : Z;
  payload : data
}.

(** A call of a gateway method, recorded in the order the handlers
    make them. *)
Inductive db_call : Type :=
| CallCreateAppointment (a : Appointment)
| CallGetAppointment (id : Z)
| CallListAppointments (userID : Z) (start_ end_ : Time)
| CallUpdateAppointment (a : Appointment)
| CallDeleteAppointment (id userID : Z).

(** [type Server struct]: the database behind [s.db], together with the
    log of the gateway calls made through it. *)
Record Server : Type := mkServer {
  Server_db : Store;
  Server_calls : list db_call
}.

(** [func (s *Server) respondJSON(w, status, data)] *)
Definition respondJSON (status : Z) (d : data) : Response :=
  mkResponse "application/json" status d.

(** [func (s *Server) respondError(w, status, message)] *)
Definition respondError (status : Z) (message : string) : Response :=
  respondJSON status (ErrorMap message).

(** [func (s *Server) handleListAppointments(w, r)] *)
Definition handleListAppointments (s : Server) (now : Time) (r : Request)
    : Server * Response :=
  (s, respondJSON StatusOK (AppointmentSlice [])).

(** [func (s *Server) handleCreateAppointment(w, r)] *)
Definition handleCreateAppointment (s : Server) (now : Time) (r : Request)
    : Server * Response :=
  match Body r with
  | None => (s, respondError StatusBadRequest "Invalid request body")
  | Some req =>
      let appt := mkAppointment 0 1 (req_Title req) (req_Description req)
                    (req_StartTime req) (req_EndTime req) zero zero in
      let '(d, appt', err) := CreateAppointment (Server_db s) now appt in
      let s' := mkServer d (Server_calls s ++ [CallCreateAppointment appt]) in
      match err with
      | Some _ =>
          (s', respondError StatusInternalServerError "Failed to create appointment")
      | None => (s', respondJSON StatusCreated (AppointmentPtr appt'))
      end
  end.

(** [func (s *Server) handleGetAppointment(w, r)] *)
Definition handleGetAppointment (s : Server) (now : Time) (r : Request)
    : Server * Response :=
  match ParseInt (vars_id r) with
  | None => (s, respondError StatusBadRequest "Invalid appointment ID")
  | Some id =>
      let '(appt, err) := GetAppointment (Server_db s) id in
      let s' := mkServer (Server_db s) (Server_calls s ++ [CallGetAppointment id]) in
      match err with
      | Some _ =>
          (s', respondError StatusInternalServerError "Failed to get appointment")
      | None =>
          match appt with
          | None => (s', respondError StatusNotFound "Appointment not found")
          | Some a => (s', respondJSON StatusOK (AppointmentPtr a))
          end
      end
  end.

(** [func (s *Server) handleUpdateAppointment(w, r)] *)
Definition handleUpdateAppointment (s : Server) (now : Time) (r : Request)
    : Server * Response :=
  match ParseInt (vars_id r) with
  | None => (s, respondError StatusBadRequest "Invalid appointment ID")
  | Some id =>
      match Body r with
      | None => (s, respondError StatusBadRequest "Invalid request body")
      | Some req =>
          let appt := mkAppointment id 1 (req_Title req) (req_Description req)
                        (req_StartTime req) (req_EndTime req) zero zero in
          let '(d, appt', err) := UpdateAppointment (Server_db s) now appt in
          let s' := mkServer d (Server_calls s ++ [CallUpdateAppointment appt]) in
          match err with
          | Some _ =>
              (s', respondError StatusInternalServerError "Failed to update appointment")
          | None => (s', respondJSON StatusOK (AppointmentPtr appt'))
          end
      end
  end.

(** [func (s *Server) handleDeleteAppointment(w, r)] *)
Definition handleDeleteAppointment (s : Server) (now : Time) (r : Request)
    : Server * Response :=
  match ParseInt (vars_id r) with
  | None => (s, respondError StatusBadRequest "Invalid appointment ID")
  | Some id =>
      let '(d, err) := DeleteAppointment (Server_db s) id 1 in
      let s' := mkServer d (Server_calls s ++ [CallDeleteAppointment id 1]) in
      match err with
      | Some _ =>
          (s', respondError StatusInternalServerError "Failed to delete appointment")
      | None => (s', respondJSON StatusNoContent NoData)
      end
  end.


End api.

Import api.

(** ** Vocabulary of the properties *)



Definition fully_containedb (userID : Z) (start_ end_ : Time) (r : Appointment)
    : bool :=
  (UserID r =? userID)
  && negb (Before (StartTime r) start_)
  && negb (After (EndTime r) end_).



(** No stored row has the given id; no stored row has it under the
    given owner. *)
Definition no_row (s : Store) (id : Z) : Prop :=
  forall r, In r (appointments s) -> ID r <> id.

Definition no_owned_row (s : Store) (id userID : Z) : Prop :=
  forall r, In r (appointments s) -> ~ (ID r = id /\ UserID r = userID).

(** Some stored row has the given id under the given owner. *)
Definition has_owned_row (s : Store) (id userID : Z) : Prop :=
  exists r, In r (appointments s) /\ ID r = id /\ UserID r = userID.

(** No two stored rows share an id, as PRIMARY KEY demands. *)
Definition ids_unique (s : Store) : Prop := NoDup (map ID (appointments s)).

(** No stored id exceeds the AUTOINCREMENT counter. *)
Definition ids_below_sequence (s : Store) : Prop :=
  Forall (fun r => ID r <= sqlite_sequence s) (appointments s).

(** The stored rows that belong to anyone but [userID], in table order. *)
Definition rows_of_others (userID : Z) (s : Store) : list Appointment :=
  filter (fun r => negb (UserID r =? userID)) (appointments s).

(** The conditions under which the INSERT of [CreateAppointment] goes
    through on [s] for owner [userID] and the given times. *)
Definition insertable (s : Store) (userID : Z) (start_time end_time : Time)
    : Prop :=
  next_rowid s <= max_int64
  /\ After end_time start_time = true
  /\ foreign_key_ok s userID = true.

(** The five handlers of the API routes. *)
Definition api_handlers : list (Server -> Time -> Request -> Server * Response) :=
  [handleListAppointments; handleCreateAppointment; handleGetAppointment;
   handleUpdateAppointment; handleDeleteAppointment].

(** * Properties *)

(** ** [ParseInt] on a few route variables *)

Example ParseInt_examples :
  ParseInt "42" = Some 42 /\ ParseInt "-7" = Some (-7) /\ ParseInt "+0" = Some 0
  /\ ParseInt "" = None /\ ParseInt "-" = None /\ ParseInt "4x" = None
  /\ ParseInt "9223372036854775807" = Some 9223372036854775807
  /\ ParseInt "9223372036854775808" = None
  /\ ParseInt "-9223372036854775808" = Some (-9223372036854775808).
Proof. repeat split; reflexivity. Qed.

(** ** The order on instants *)

(** Turns the boolean comparisons of [time] on [Z] back into
    propositions and leaves the arithmetic to [lia]. *)
Ltac time_order :=
  unfold check_constraint, sql_gt, sql_ge, sql_le, IsZero, After, Before, Equal in *;
  simpl in *;
  rewrite ?Z.gtb_ltb, ?Z.geb_leb in *;
  repeat match goal with
         | |- context [?x <? ?y] => destruct (Z.ltb_spec x y)
         | |- context [?x =? ?y] => destruct (Z.eqb_spec x y)
         | H : context [?x <? ?y] |- _ => destruct (Z.ltb_spec x y)
         | H : context [?x =? ?y] |- _ => destruct (Z.eqb_spec x y)
         end;
  simpl in *; try congruence; try lia.

Lemma Time_eta (t : Time) : mkTime (sec t) (nsec t) = t.
Proof. destruct t; reflexivity. Qed.


Lemma Before_irrefl (t : Time) : Before t t = false.
Proof. time_order. Qed.

Lemma After_irrefl (t : Time) : After t t = false.
Proof. time_order. Qed.


Lemma Before_trans (t u v : Time) :
  Before t u = true -> Before u v = true -> Before t v = true.
Proof. intros H1 H2. time_order. Qed.




(** ** [Validate] *)

Lemma String_eqb_empty (s : string) : String.eqb s "" = true <-> s = "".
Proof. apply String.eqb_eq. Qed.

(** What [Validate] computes, case by case. *)
Lemma Validate_cases (a : Appointment) :
  (Title a = "" /\ Validate a = Some ErrEmptyTitle)
  \/ (Title a <> "" /\ (IsZero (StartTime a) = true \/ IsZero (EndTime a) = true)
      /\ Validate a = Some ErrInvalidTime)
  \/ (Title a <> "" /\ IsZero (StartTime a) = false /\ IsZero (EndTime a) = false
      /\ Before (EndTime a) (StartTime a) = true
      /\ Validate a = Some ErrEndTimeBeforeStart)
  \/ (Title a <> "" /\ IsZero (StartTime a) = false /\ IsZero (EndTime a) = false
      /\ Before (EndTime a) (StartTime a) = false
      /\ Validate a = None).
Proof.
  unfold Validate.
  destruct (String.eqb_spec (Title a) "") as [Ht|Ht]; [left; auto|right].
  destruct (IsZero (StartTime a)) eqn:Es; simpl; [left; auto|].
  destruct (IsZero (EndTime a)) eqn:Ee; simpl; [left; auto|right].
  destruct (Before (EndTime a) (StartTime a)) eqn:Eb; [left|right]; auto.
Qed.

(** [Validate] fails exactly when the title is empty, a timestamp is
    unset, or the end lies strictly before the start. *)
Lemma Validate_error_iff (a : Appointment) :
  Validate a <> None <->
  Title a = "" \/ IsZero (StartTime a) = true \/ IsZero (EndTime a) = true
  \/ Before (EndTime a) (StartTime a) = true.
Proof.
  destruct (Validate_cases a) as [[Ht Hv]|[(Ht & Hz & Hv)|[(Ht & Hs & He & Hb & Hv)|(Ht & Hs & He & Hb & Hv)]]];
    rewrite Hv; split; intros H; try discriminate; try tauto;
    try (exfalso; intuition congruence).
Qed.

(** C1: an appointment with a non-empty title, both timestamps set and
    the end equal to the start passes [Validate] (the result is [nil]),
    although the CHECK constraint of the schema, which guards the same
    invariant, rejects exactly such a row.  Shown for every such
    appointment and at the instant 2025-03-01T09:00:00Z. *)
Theorem Validate_accepts_equal_times :
  (forall id uid title desc T c u,
      title <> "" -> IsZero T = false ->
      Validate (mkAppointment id uid title desc T T c u) = None
      /\ check_constraint T T = false)
  /\ Validate (mkAppointment 0 1 "Standup" "" (mkTime 63876416400 0)
                 (mkTime 63876416400 0) zero zero) = None.
Proof.
  split; [|reflexivity].
  intros id uid title desc T c u Ht Hz. split.
  - unfold Validate; simpl.
    destruct (String.eqb_spec title "") as [E|E]; [contradiction|].
    rewrite Hz; simpl. now rewrite Before_irrefl.
  - unfold check_constraint, sql_gt. apply After_irrefl.
Qed.

Lemma Validate_accepts_equal_times_witness :
  Validate (mkAppointment 7 1 "Review" "weekly" (mkTime 63876416400 5)
              (mkTime 63876416400 5) zero zero) = None
  /\ check_constraint (mkTime 63876416400 5) (mkTime 63876416400 5) = false.
Proof.
  apply (proj1 Validate_accepts_equal_times); [discriminate | reflexivity].
Defined.

(** C9: [Validate] reports at most one error, in a fixed order of
    precedence: an empty title gives [ErrEmptyTitle] whatever the
    timestamps are; with a non-empty title an unset timestamp gives
    [ErrInvalidTime] whatever the order of the two is; and
    [ErrEndTimeBeforeStart] comes back only when the title is non-empty
    and both timestamps are set (and then exactly when the end is
    before the start). *)
Theorem Validate_precedence (a : Appointment) :
  (Title a = "" -> Validate a = Some ErrEmptyTitle)
  /\ (Title a <> "" ->
      IsZero (StartTime a) = true \/ IsZero (EndTime a) = true ->
      Validate a = Some ErrInvalidTime)
  /\ (Validate a = Some ErrEndTimeBeforeStart <->
      Title a <> "" /\ IsZero (StartTime a) = false
      /\ IsZero (EndTime a) = false
      /\ Before (EndTime a) (StartTime a) = true)
  /\ (forall e1 e2, Validate a = Some e1 -> Validate a = Some e2 -> e1 = e2).
Proof.
  destruct (Validate_cases a) as [[Ht Hv]|[(Ht & Hz & Hv)|[(Ht & Hs & He & Hb & Hv)|(Ht & Hs & He & Hb & Hv)]]];
    rewrite Hv; repeat split; intros; try congruence; try tauto;
    try (exfalso; intuition congruence).
Qed.

Lemma Validate_precedence_witness :
  Validate (mkAppointment 0 1 "" "" zero (mkTime 5 0) zero zero)
    = Some ErrEmptyTitle
  /\ Validate (mkAppointment 0 1 "Standup" "" (mkTime 9 0) zero zero zero)
    = Some ErrInvalidTime
  /\ Validate (mkAppointment 0 1 "Standup" "" (mkTime 9 0) (mkTime 8 0) zero zero)
    = Some ErrEndTimeBeforeStart.
Proof.
  split; [|split].
  - apply (proj1 (Validate_precedence
             (mkAppointment 0 1 "" "" zero (mkTime 5 0) zero zero))).
    reflexivity.
  - apply (proj1 (proj2 (Validate_precedence
             (mkAppointment 0 1 "Standup" "" (mkTime 9 0) zero zero zero)))).
    + discriminate.
    + right; reflexivity.
  - apply (proj1 (proj2 (proj2 (Validate_precedence
             (mkAppointment 0 1 "Standup" "" (mkTime 9 0) (mkTime 8 0) zero zero))))).
    repeat split; try reflexivity. discriminate.
Defined.

(** ** The CHECK constraint as an invariant of the store *)

Lemma Store_eta (s : Store) :
  mkStore (foreign_keys s) (users s) (appointments s) (sqlite_sequence s) = s.
Proof. destruct s; reflexivity. Qed.

Lemma Appointment_eta (a : Appointment) :
  mkAppointment (ID a) (UserID a) (Title a) (Description a)
    (StartTime a) (EndTime a) (CreatedAt a) (UpdatedAt a) = a.
Proof. destruct a; reflexivity. Qed.

(** An insert either fails and leaves the store alone, or appends one
    row that satisfies the constraints. *)
Lemma insert_returning_inv s now uid title desc st en :
  (exists e, insert_returning s now uid title desc st en = Err e)
  \/ (check_constraint st en = true
      /\ foreign_key_ok s uid = true
      /\ next_rowid s <= max_int64
      /\ insert_returning s now uid title desc st en =
         Ok (mkStore (foreign_keys s) (users s)
               (appointments s ++
                  [mkAppointment (next_rowid s) uid title desc st en
                     (CURRENT_TIMESTAMP now) (CURRENT_TIMESTAMP now)])
               (next_rowid s),
             (next_rowid s, CURRENT_TIMESTAMP now, CURRENT_TIMESTAMP now))).
Proof.
  unfold insert_returning.
  destruct (Z.gtb_spec (next_rowid s) max_int64) as [Hf|Hf]; [left; eauto|].
  destruct (check_constraint st en); simpl; [|left; eauto].
  destruct (foreign_key_ok s uid); simpl; [|left; eauto].
  right. repeat split; auto; lia.
Qed.







(** ** [ListAppointments] *)

Lemma scan_rows_app rows : forall acc, scan_rows rows acc = (acc ++ rows)%list.
Proof.
  induction rows as [|r rows IH]; intros acc; simpl.
  - now rewrite app_nil_r.
  - rewrite IH, Appointment_eta, <- app_assoc. reflexivity.
Qed.

Lemma insert_by_start_perm r rows :
  Permutation (insert_by_start r rows) (r :: rows).
Proof.
  induction rows as [|x rows IH]; simpl; auto.
  destruct (sql_le (StartTime r) (StartTime x)); auto.
  rewrite IH. apply perm_swap.
Qed.

Lemma order_by_start_time_perm rows :
  Permutation (order_by_start_time rows) rows.
Proof.
  induction rows as [|r rows IH]; simpl; auto.
  rewrite insert_by_start_perm. now constructor.
Qed.



Lemma in_range_fully_containedb uid st en r :
  in_range uid st en r = fully_containedb uid st en r.
Proof. reflexivity. Qed.


Lemma ListAppointments_eq s uid st en :
  ListAppointments s uid st en =
  (order_by_start_time (filter (fully_containedb uid st en) (appointments s)),
   None).
Proof.
  unfold ListAppointments, select_range. now rewrite scan_rows_app.
Qed.



(** The stored rows of the example above, listed for their owner: the
    long appointment is left out, the short one is returned. *)
Example ListAppointments_example :
  ListAppointments
    (mkStore false []
       [mkAppointment 1 1 "Workshop" "" (mkTime 63876416400 0)
          (mkTime 63876423600 0) zero zero;
        mkAppointment 2 1 "Standup" "" (mkTime 63876418200 0)
          (mkTime 63876419100 0) zero zero] 2)
    1 (mkTime 63876418200 0) (mkTime 63876421800 0)
  = ([mkAppointment 2 1 "Standup" "" (mkTime 63876418200 0)
        (mkTime 63876419100 0) zero zero], None).
Proof. reflexivity. Qed.

(** ** Create followed by get *)

Lemma max_rowid_ge rows r : In r rows -> ID r <= max_rowid rows.
Proof.
  induction rows as [|x rows IH]; simpl; [tauto|].
  intros [<-|H]; [lia|]. specialize (IH H). lia.
Qed.

Lemma find_app_fresh rows row id :
  (forall r, In r rows -> ID r <> id) ->
  ID row = id ->
  find (fun r => ID r =? id) (rows ++ [row]) = Some row.
Proof.
  intros Hfresh Hid.
  induction rows as [|x rows IH]; simpl.
  - now rewrite Hid, Z.eqb_refl.
  - destruct (Z.eqb_spec (ID x) id) as [E|E].
    + exfalso. apply (Hfresh x); simpl; auto.
    + apply IH. intros r Hr. apply Hfresh. now right.
Qed.

Lemma find_none_no_row rows id :
  (forall r, In r rows -> ID r <> id) ->
  find (fun r => ID r =? id) rows = None.
Proof.
  intros H. induction rows as [|x rows IH]; simpl; auto.
  destruct (Z.eqb_spec (ID x) id) as [E|E].
  - exfalso. apply (H x); simpl; auto.
  - apply IH. intros r Hr. apply H. now right.
Qed.

(** C4: when [CreateAppointment] succeeds, [GetAppointment] on the id
    it wrote into the struct finds a row, with no error, whose title,
    description, start and end are those of the input (and whose id and
    owner are those of the created struct); its two store timestamps
    are the ones create reported and, the store clock not reading the
    zero instant, they are not zero. *)
Theorem create_then_get_roundtrip s now a s' a' :
  CreateAppointment s now a = (s', a', None) ->
  IsZero (CURRENT_TIMESTAMP now) = false ->
  exists r,
    GetAppointment s' (ID a') = (Some r, None)
    /\ Title r = Title a
    /\ Description r = Description a
    /\ StartTime r = StartTime a
    /\ EndTime r = EndTime a
    /\ ID r = ID a' /\ UserID r = UserID a
    /\ CreatedAt r = CreatedAt a' /\ UpdatedAt r = UpdatedAt a'
    /\ IsZero (CreatedAt r) = false
    /\ IsZero (UpdatedAt r) = false.
Proof.
  unfold CreateAppointment. intros H Hnow.
  destruct (insert_returning_inv s now (UserID a) (Title a) (Description a)
              (StartTime a) (EndTime a)) as [[e He]|(_ & _ & _ & He)];
    rewrite He in H; [discriminate|].
  injection H as <- <-.
  unfold GetAppointment, select_by_id; simpl.
  rewrite find_app_fresh; [|
    intros r Hr; pose proof (max_rowid_ge _ _ Hr); unfold next_rowid; lia
    | reflexivity ].
  simpl. eexists; split; [reflexivity|]. simpl. repeat split; auto.
Qed.

Lemma create_then_get_roundtrip_witness :
  let s := mkStore false [] [] 0 in
  let now := mkTime 63876400000 123 in
  let a := mkAppointment 0 1 "Standup" "daily" (mkTime 63876416400 0)
             (mkTime 63876417300 0) zero zero in
  exists r,
    GetAppointment (fst (fst (CreateAppointment s now a))) 1 = (Some r, None)
    /\ Title r = "Standup"
    /\ Description r = "daily"
    /\ StartTime r = mkTime 63876416400 0
    /\ EndTime r = mkTime 63876417300 0
    /\ ID r = 1 /\ UserID r = 1
    /\ CreatedAt r = mkTime 63876400000 0 /\ UpdatedAt r = mkTime 63876400000 0
    /\ IsZero (CreatedAt r) = false
    /\ IsZero (UpdatedAt r) = false.
Proof.
  intros s now a.
  apply (create_then_get_roundtrip s now a
           (fst (fst (CreateAppointment s now a)))
           (snd (fst (CreateAppointment s now a)))); reflexivity.
Defined.

(** ** Get, delete and update on a row that is not there *)

(** C5: for an id that no stored row has, [GetAppointment] returns a
    nil appointment and a nil error; and GET /api/appointments/{id}
    with a route variable that parses to such an id answers 404 with
    the message of the not-found branch (not 500), leaves the store as
    it was and has made the one gateway call. *)
Theorem get_missing_is_not_found s id :
  no_row s id ->
  GetAppointment s id = (None, None)
  /\ (forall calls now r,
        ParseInt (vars_id r) = Some id ->
        handleGetAppointment (mkServer s calls) now r =
        (mkServer s (calls ++ [CallGetAppointment id]),
         respondError StatusNotFound "Appointment not found")
        /\ status (snd (handleGetAppointment (mkServer s calls) now r)) = 404
        /\ status (snd (handleGetAppointment (mkServer s calls) now r))
           <> StatusInternalServerError).
Proof.
  intros Hno.
  assert (G : GetAppointment s id = (None, None)).
  { unfold GetAppointment, select_by_id.
    now rewrite (find_none_no_row _ _ Hno). }
  split; [exact G|].
  intros calls now r Hid.
  unfold handleGetAppointment. rewrite Hid. simpl. rewrite G. simpl.
  repeat split. discriminate.
Qed.

Lemma get_missing_is_not_found_witness :
  let s := mkStore false []
             [mkAppointment 1 1 "Standup" "" (mkTime 63876416400 0)
                (mkTime 63876417300 0) (mkTime 63876400000 0)
                (mkTime 63876400000 0)] 1 in
  GetAppointment s 42 = (None, None)
  /\ status (snd (handleGetAppointment (mkServer s []) zero
                    (mkHTTPRequest "42" "" None))) = 404.
Proof.
  intros s.
  assert (Hno : no_row s 42).
  { simpl. intros r [<-|[]]. simpl. lia. }
  split.
  - apply (proj1 (get_missing_is_not_found s 42 Hno)).
  - apply (proj2 (get_missing_is_not_found s 42 Hno) [] zero
             (mkHTTPRequest "42" "" None)).
    reflexivity.
Defined.

Lemma owned_false_of_no_owned_row s id uid :
  no_owned_row s id uid ->
  forall r, In r (appointments s) -> owned id uid r = false.
Proof.
  intros H r Hr. specialize (H r Hr). unfold owned.
  destruct (Z.eqb_spec (ID r) id), (Z.eqb_spec (UserID r) uid); simpl; tauto.
Qed.

Lemma filter_all (A : Type) (f : A -> bool) (l : list A) :
  (forall x, In x l -> f x = true) -> filter f l = l.
Proof.
  induction l as [|x l IH]; simpl; intros H; auto.
  rewrite (H x) by auto. f_equal. apply IH. auto.
Qed.

Lemma filter_none (A : Type) (f : A -> bool) (l : list A) :
  (forall x, In x l -> f x = false) -> filter f l = [].
Proof.
  induction l as [|x l IH]; simpl; intros H; auto.
  rewrite (H x) by auto. apply IH. auto.
Qed.

(** C6: when no stored row has both the id and the owner given, a
    delete returns the "appointment not found or unauthorized" error
    and the store after the call is the store before it; in particular
    a row with that id under another owner is still stored and still
    returned by [GetAppointment]. *)
Theorem delete_unmatched_is_rejected s id userID :
  no_owned_row s id userID ->
  DeleteAppointment s id userID = (s, Some ErrNotFoundOrUnauthorized)
  /\ (forall r, In r (appointments s) ->
                In r (appointments (fst (DeleteAppointment s id userID))))
  /\ GetAppointment (fst (DeleteAppointment s id userID)) id
     = GetAppointment s id.
Proof.
  intros Hno.
  assert (G : DeleteAppointment s id userID = (s, Some ErrNotFoundOrUnauthorized)).
  { unfold DeleteAppointment, delete_exec.
    pose proof (owned_false_of_no_owned_row _ _ _ Hno) as Hf.
    rewrite (filter_none _ (owned id userID)) by exact Hf.
    rewrite filter_all.
    - simpl. now rewrite Store_eta.
    - intros r Hr. now rewrite (Hf r Hr). }
  rewrite G. simpl. auto.
Qed.

Lemma delete_unmatched_is_rejected_witness :
  let row := mkAppointment 1 1 "Standup" "" (mkTime 63876416400 0)
               (mkTime 63876417300 0) (mkTime 63876400000 0)
               (mkTime 63876400000 0) in
  let s := mkStore false [] [row] 1 in
  DeleteAppointment s 1 2 = (s, Some ErrNotFoundOrUnauthorized)
  /\ GetAppointment (fst (DeleteAppointment s 1 2)) 1 = (Some row, None).
Proof.
  intros row s.
  assert (Hno : no_owned_row s 1 2).
  { simpl. intros r [<-|[]] [_ H]. simpl in H. lia. }
  split.
  - apply (proj1 (delete_unmatched_is_rejected s 1 2 Hno)).
  - rewrite (proj2 (proj2 (delete_unmatched_is_rejected s 1 2 Hno))).
    reflexivity.
Defined.

Lemma existsb_owned_false s id uid :
  no_owned_row s id uid -> existsb (owned id uid) (appointments s) = false.
Proof.
  intros H. pose proof (owned_false_of_no_owned_row _ _ _ H) as Hf.
  induction (appointments s) as [|x l IH]; simpl; auto.
  rewrite (Hf x) by (simpl; auto). simpl. apply IH.
  intros r Hr. apply Hf. now right.
Qed.

(** C7: when no stored row has both the id and the owner of the
    appointment passed in, [UpdateAppointment] returns an error, the
    wrapped [sql.ErrNoRows] of the single-row read, and never a nil
    error; the struct keeps the [UpdatedAt] it came with and the store
    is as it was. *)
Theorem update_unmatched_is_error s now a :
  no_owned_row s (ID a) (UserID a) ->
  UpdateAppointment s now a
  = (s, a, Some (Errorf "failed to update appointment" ErrNoRows))
  /\ snd (UpdateAppointment s now a) <> None
  /\ fst (fst (UpdateAppointment s now a)) = s
  /\ UpdatedAt (snd (fst (UpdateAppointment s now a))) = UpdatedAt a.
Proof.
  intros Hno.
  assert (G : UpdateAppointment s now a
              = (s, a, Some (Errorf "failed to update appointment" ErrNoRows))).
  { unfold UpdateAppointment, update_returning.
    now rewrite (existsb_owned_false _ _ _ Hno). }
  rewrite G. simpl. repeat split. discriminate.
Qed.

Lemma update_unmatched_is_error_witness :
  let row := mkAppointment 1 2 "Standup" "" (mkTime 63876416400 0)
               (mkTime 63876417300 0) (mkTime 63876400000 0)
               (mkTime 63876400000 0) in
  let s := mkStore false [] [row] 1 in
  let a := mkAppointment 1 1 "Moved" "" (mkTime 63876420000 0)
             (mkTime 63876423600 0) zero zero in
  UpdateAppointment s (mkTime 63876500000 0) a
  = (s, a, Some (Errorf "failed to update appointment" ErrNoRows)).
Proof.
  intros row s a.
  assert (Hno : no_owned_row s (ID a) (UserID a)).
  { simpl. intros r [<-|[]] [_ H]. simpl in H. lia. }
  apply (proj1 (update_unmatched_is_error s (mkTime 63876500000 0) a Hno)).
Defined.

(** ** The handlers *)

(** C8: GET /api/appointments answers 200 with the empty collection
    for every server state, clock reading and request (route variable,
    query string and body included); the server, and with it the store
    and the log of gateway calls, is returned as it was, so the gateway
    is not called.  This holds also on a store for which the gateway's
    [ListAppointments] has rows to return. *)
Theorem handleListAppointments_is_stub :
  (forall s now r,
      handleListAppointments s now r
      = (s, mkResponse "application/json" 200 (AppointmentSlice []))
      /\ status (snd (handleListAppointments s now r)) = StatusOK
      /\ payload (snd (handleListAppointments s now r)) = AppointmentSlice []
      /\ Server_db (fst (handleListAppointments s now r)) = Server_db s
      /\ Server_calls (fst (handleListAppointments s now r)) = Server_calls s)
  /\ (exists s now r,
        fst (ListAppointments (Server_db s) 1 zero (mkTime 99999999999 0)) <> []
        /\ payload (snd (handleListAppointments s now r)) = AppointmentSlice []).
Proof.
  split.
  - intros s now r. repeat split.
  - exists (mkServer
              (mkStore false []
                 [mkAppointment 1 1 "Standup" "" (mkTime 63876416400 0)
                    (mkTime 63876417300 0) (mkTime 63876400000 0)
                    (mkTime 63876400000 0)] 1) []),
      zero, (mkHTTPRequest "" "start=2025-03-01" None).
    split; [discriminate|reflexivity].
Qed.

(** An update that goes through: a row matched, the new times satisfy
    the CHECK constraint, every matching row got the new values and
    the timestamp of the store clock, and that timestamp was read
    back. *)
Lemma UpdateAppointment_ok_inv s now a s' a' :
  UpdateAppointment s now a = (s', a', None) ->
  a' = mkAppointment (ID a) (UserID a) (Title a) (Description a)
         (StartTime a) (EndTime a) (CreatedAt a) (CURRENT_TIMESTAMP now)
  /\ (exists old, In old (appointments s)
                  /\ ID old = ID a /\ UserID old = UserID a)
  /\ (forall old, In old (appointments s) ->
                  ID old = ID a -> UserID old = UserID a ->
                  In (mkAppointment (ID a) (UserID a) (Title a) (Description a)
                        (StartTime a) (EndTime a) (CreatedAt old)
                        (CURRENT_TIMESTAMP now))
                     (appointments s')).
Proof.
  unfold UpdateAppointment, update_returning.
  destruct (existsb _ _) eqn:Ex; [|discriminate].
  destruct (check_constraint _ _); [|discriminate].
  intros H. injection H as <- <-.
  split; [reflexivity|]. split.
  - apply existsb_exists in Ex. destruct Ex as (old & Hin & Ho).
    unfold owned in Ho. apply andb_true_iff in Ho.
    rewrite !Z.eqb_eq in Ho. exists old. tauto.
  - intros old Hin Hid Hu. simpl.
    apply in_map_iff. exists old. split; auto.
    unfold owned. rewrite Hid, Hu, !Z.eqb_refl. reflexivity.
Qed.

(** C10: when PUT /api/appointments/{id} answers 200, the appointment
    in the body carries the id of the route, the owner 1, the four
    fields of the decoded request, the zero time as [created_at], and
    as [updated_at] the timestamp the store gave the updated row; a
    matching row existed, and every such row is now stored with the
    request's fields, that same [updated_at] and its own earlier
    [created_at], which the response does not show. *)
Theorem handleUpdateAppointment_echo s now r s' resp :
  handleUpdateAppointment s now r = (s', resp) ->
  status resp = StatusOK ->
  exists id req,
    ParseInt (vars_id r) = Some id
    /\ Body r = Some req
    /\ payload resp =
       AppointmentPtr
         (mkAppointment id 1 (req_Title req) (req_Description req)
            (req_StartTime req) (req_EndTime req)
            zero (CURRENT_TIMESTAMP now))
    /\ (exists old, In old (appointments (Server_db s))
                    /\ ID old = id /\ UserID old = 1)
    /\ (forall old, In old (appointments (Server_db s)) ->
                    ID old = id -> UserID old = 1 ->
                    In (mkAppointment id 1 (req_Title req) (req_Description req)
                          (req_StartTime req) (req_EndTime req)
                          (CreatedAt old) (CURRENT_TIMESTAMP now))
                       (appointments (Server_db s'))).
Proof.
  unfold handleUpdateAppointment.
  destruct (ParseInt (vars_id r)) as [id|]; [|intros [= <- <-]; discriminate].
  destruct (Body r) as [req|]; [|intros [= <- <-]; discriminate].
  destruct (UpdateAppointment _ _ _) as [[d appt'] [e|]] eqn:U;
    [intros [= <- <-]; discriminate|].
  intros [= <- <-] _.
  apply UpdateAppointment_ok_inv in U. simpl in U.
  destruct U as (-> & Hex & Hall).
  exists id, req. simpl. repeat split; auto.
Qed.

Lemma handleUpdateAppointment_echo_witness :
  let row := mkAppointment 1 1 "Standup" "" (mkTime 63876416400 0)
               (mkTime 63876417300 0) (mkTime 63876400000 0)
               (mkTime 63876400000 0) in
  let s := mkServer (mkStore false [] [row] 1) [] in
  let now := mkTime 63876500000 77 in
  let r := mkHTTPRequest "1" ""
             (Some (mkRequest "Moved" "later" (mkTime 63876420000 0)
                      (mkTime 63876423600 0))) in
  exists id req,
    ParseInt (vars_id r) = Some id
    /\ Body r = Some req
    /\ payload (snd (handleUpdateAppointment s now r)) =
       AppointmentPtr
         (mkAppointment id 1 (req_Title req) (req_Description req)
            (req_StartTime req) (req_EndTime req)
            zero (CURRENT_TIMESTAMP now))
    /\ (exists old, In old (appointments (Server_db s))
                    /\ ID old = id /\ UserID old = 1)
    /\ (forall old, In old (appointments (Server_db s)) ->
                    ID old = id -> UserID old = 1 ->
                    In (mkAppointment id 1 (req_Title req) (req_Description req)
                          (req_StartTime req) (req_EndTime req)
                          (CreatedAt old) (CURRENT_TIMESTAMP now))
                       (appointments
                          (Server_db (fst (handleUpdateAppointment s now r))))).
Proof.
  intros row s now r.
  apply (handleUpdateAppointment_echo s now r
           (fst (handleUpdateAppointment s now r))
           (snd (handleUpdateAppointment s now r))); reflexivity.
Defined.

(** The PUT of the example above: the stored row keeps its creation
    time, the body of the response shows the zero time instead. *)
Example handleUpdateAppointment_example :
  let row := mkAppointment 1 1 "Standup" "" (mkTime 63876416400 0)
               (mkTime 63876417300 0) (mkTime 63876400000 0)
               (mkTime 63876400000 0) in
  let s := mkServer (mkStore false [] [row] 1) [] in
  let r := mkHTTPRequest "1" ""
             (Some (mkRequest "Moved" "later" (mkTime 63876420000 0)
                      (mkTime 63876423600 0))) in
  let out := handleUpdateAppointment s (mkTime 63876500000 77) r in
  snd out = mkResponse "application/json" 200
              (AppointmentPtr
                 (mkAppointment 1 1 "Moved" "later" (mkTime 63876420000 0)
                    (mkTime 63876423600 0) zero (mkTime 63876500000 0)))
  /\ appointments (Server_db (fst out))
     = [mkAppointment 1 1 "Moved" "later" (mkTime 63876420000 0)
          (mkTime 63876423600 0) (mkTime 63876400000 0)
          (mkTime 63876500000 0)].
Proof. split; reflexivity. Qed.

(** ** A run of the gateway *)

(** On a new database a create stores its row; a later update that
    would make the end equal to the start and a second create with
    equal times both bounce off the CHECK constraint, and a delete by
    another owner removes nothing. *)
Example run_example :
  let nine := mkTime 63876416400 0 in
  let a := mkAppointment 0 1 "Standup" "" nine (mkTime 63876417300 0) zero zero in
  let now := mkTime 63876400000 0 in
  appointments
    (run (InitSchema None false)
       [OpCreate now a;
        OpUpdate now (mkAppointment 1 1 "Standup" "" nine nine zero zero);
        OpCreate now (mkAppointment 0 1 "Retro" "" nine nine zero zero);
        OpDelete 1 2])
  = [mkAppointment 1 1 "Standup" "" nine (mkTime 63876417300 0) now now].
Proof. reflexivity. Qed.

(** * Further properties of the gateway *)

(** ** When a create goes through *)


Lemma insert_returning_err_iff s now uid title desc st en :
  (exists e, insert_returning s now uid title desc st en = Err e)
  <-> ~ insertable s uid st en.
Proof.
  unfold insert_returning, insertable, check_constraint, sql_gt.
  destruct (Z.gtb_spec (next_rowid s) max_int64) as [Hf|Hf].
  { split; [intros _ (H & _); lia | eauto]. }
  destruct (After en st); simpl.
  2:{ split; [intros _ (_ & H & _); discriminate | eauto]. }
  destruct (foreign_key_ok s uid); simpl.
  2:{ split; [intros _ (_ & _ & H); discriminate | eauto]. }
  split; [intros [e He]; discriminate | intros H; exfalso; apply H; auto].
Qed.



(** ** Failed calls change nothing *)

(** Whenever [CreateAppointment] or [UpdateAppointment] returns an
    error the store and the caller's struct are as before the call,
    and whenever [DeleteAppointment] returns an error the store is as
    before the call. *)
Theorem failed_call_leaves_store s now a id userID :
  (snd (CreateAppointment s now a) <> None ->
   fst (CreateAppointment s now a) = (s, a))
  /\ (snd (UpdateAppointment s now a) <> None ->
      fst (UpdateAppointment s now a) = (s, a))
  /\ (snd (DeleteAppointment s id userID) <> None ->
      fst (DeleteAppointment s id userID) = s).
Proof.
  split; [|split].
  - unfold CreateAppointment.
    destruct (insert_returning _ _ _ _ _ _ _) as [[s' [[i c] u]]|e]; simpl;
      [intros H; now contradiction H | reflexivity].
  - unfold UpdateAppointment.
    destruct (update_returning _ _ _ _ _ _ _ _) as [[s' u]|e]; simpl;
      [intros H; now contradiction H | reflexivity].
  - unfold DeleteAppointment, delete_exec.
    destruct (Z.eqb_spec (Z.of_nat (List.length (filter (owned id userID) (appointments s)))) 0)
      as [E|E]; simpl; [intros _|intros H; now contradiction H].
    assert (Hn : filter (owned id userID) (appointments s) = []).
    { destruct (filter _ _); [reflexivity|simpl in E; lia]. }
    rewrite filter_all; [apply Store_eta|].
    intros r Hr. destruct (owned id userID r) eqn:Eo; [|reflexivity].
    exfalso. assert (Hin : In r (filter (owned id userID) (appointments s)))
      by (apply filter_In; auto).
    rewrite Hn in Hin. destruct Hin.
Qed.

Lemma failed_call_leaves_store_witness :
  let row := mkAppointment 1 1 "Standup" "" (mkTime 63876416400 0)
               (mkTime 63876417300 0) (mkTime 63876400000 0)
               (mkTime 63876400000 0) in
  let s := mkStore false [] [row] 1 in
  let a := mkAppointment 1 1 "Standup" "" (mkTime 63876416400 0)
             (mkTime 63876416400 0) zero zero in
  fst (CreateAppointment s zero a) = (s, a)
  /\ fst (UpdateAppointment s zero a) = (s, a)
  /\ fst (DeleteAppointment s 9 1) = s.
Proof.
  intros row s a.
  split; [|split].
  - apply (proj1 (failed_call_leaves_store s zero a 9 1)). discriminate.
  - apply (proj1 (proj2 (failed_call_leaves_store s zero a 9 1))). discriminate.
  - apply (proj2 (proj2 (failed_call_leaves_store s zero a 9 1))). discriminate.
Defined.

(** ** Row ids *)

Lemma filter_keeps_ids_unique (keep : Appointment -> bool) rows :
  NoDup (map ID rows) -> NoDup (map ID (filter keep rows)).
Proof.
  intros Hu. induction rows as [|x rows IH]; simpl; [constructor|].
  apply NoDup_cons_iff in Hu. destruct Hu as [Hx Hrest].
  destruct (keep x); simpl; [|now apply IH].
  apply NoDup_cons_iff. split; [|now apply IH].
  rewrite in_map_iff. intros (y & Hy & Hf). apply Hx.
  rewrite <- Hy. apply in_map. apply filter_In in Hf. tauto.
Qed.

Lemma update_keeps_ids id uid title desc st en ts rows :
  map ID (map (fun r => if owned id uid r
                        then mkAppointment (ID r) (UserID r) title desc
                               st en (CreatedAt r) ts
                        else r) rows)
  = map ID rows.
Proof.
  rewrite map_map. apply map_ext. intros r. now destruct (owned id uid r).
Qed.

Lemma step_ids s o :
  ids_unique s /\ ids_below_sequence s ->
  ids_unique (step s o) /\ ids_below_sequence (step s o)
  /\ sqlite_sequence s <= sqlite_sequence (step s o).
Proof.
  unfold ids_unique, ids_below_sequence. intros [Hu Hb].
  destruct o as [now a|now a|id uid]; simpl.
  - unfold CreateAppointment.
    destruct (insert_returning_inv s now (UserID a) (Title a) (Description a)
                (StartTime a) (EndTime a)) as [[e He]|(_ & _ & _ & He)];
      rewrite He; simpl; [repeat split; auto; lia|].
    assert (Hlt : forall r, In r (appointments s) -> ID r < next_rowid s).
    { intros r Hr. pose proof (max_rowid_ge _ _ Hr). unfold next_rowid. lia. }
    split; [|split].
    + rewrite map_app. simpl. apply NoDup_app; auto.
      * repeat constructor. simpl. tauto.
      * intros x Hx [<-|[]]. apply in_map_iff in Hx.
        destruct Hx as (r & Hid & Hr). specialize (Hlt r Hr). lia.
    + apply Forall_app. split.
      * rewrite Forall_forall. intros r Hr. specialize (Hlt r Hr). lia.
      * repeat constructor. simpl. lia.
    + unfold next_rowid. lia.
  - unfold UpdateAppointment, update_returning.
    destruct (existsb _ _); simpl; [|repeat split; auto; lia].
    destruct (check_constraint _ _); simpl; [|repeat split; auto; lia].
    split; [|split].
    + now rewrite update_keeps_ids.
    + rewrite Forall_map. eapply Forall_impl; [|exact Hb].
      intros r Hr. now destruct (owned _ _ r).
    + lia.
  - unfold DeleteAppointment, delete_exec.
    assert (G : NoDup (map ID (filter (fun r => negb (owned id uid r)) (appointments s)))
                /\ Forall (fun r => ID r <= sqlite_sequence s)
                     (filter (fun r => negb (owned id uid r)) (appointments s))).
    { split; [now apply filter_keeps_ids_unique|].
      rewrite Forall_forall in *. intros r Hr. apply filter_In in Hr.
      apply Hb, Hr. }
    destruct (_ =? 0); simpl; repeat split; try tauto; lia.
Qed.

Lemma run_ids ops : forall s,
  ids_unique s /\ ids_below_sequence s ->
  ids_unique (run s ops) /\ ids_below_sequence (run s ops)
  /\ sqlite_sequence s <= sqlite_sequence (run s ops).
Proof.
  induction ops as [|o ops IH]; intros s H; simpl.
  - repeat split; try tauto. lia.
  - destruct (step_ids s o H) as (Hu & Hb & Hs).
    destruct (IH (step s o) (conj Hu Hb)) as (Hu' & Hb' & Hs').
    repeat split; auto. lia.
Qed.

(** After any run of create, update and delete calls on a store whose
    appointments table started empty, no two stored rows share an id
    and no stored id exceeds the AUTOINCREMENT counter. *)
Theorem ids_unique_in_every_run fk us seq ops :
  ids_unique (run (mkStore fk us [] seq) ops)
  /\ ids_below_sequence (run (mkStore fk us [] seq) ops).
Proof.
  destruct (run_ids ops (mkStore fk us [] seq)) as (Hu & Hb & _).
  - split; constructor.
  - auto.
Qed.

(** Ids are never given twice: of two creates that succeed, with any
    calls (deletes included) run in between, the later one gets the
    larger id. *)
Theorem later_create_gets_larger_id s now1 a s1 a1 ops now2 b s2 a2 :
  CreateAppointment s now1 a = (s1, a1, None) ->
  CreateAppointment (run s1 ops) now2 b = (s2, a2, None) ->
  ID a1 < ID a2.
Proof.
  intros H1 H2.
  assert (E1 : sqlite_sequence s1 = ID a1).
  { unfold CreateAppointment in H1.
    destruct (insert_returning_inv s now1 (UserID a) (Title a) (Description a)
                (StartTime a) (EndTime a)) as [[e He]|(_ & _ & _ & He)];
      rewrite He in H1; [discriminate|].
    injection H1 as <- <-. reflexivity. }
  assert (E2 : sqlite_sequence (run s1 ops) < ID a2).
  { unfold CreateAppointment in H2.
    destruct (insert_returning_inv (run s1 ops) now2 (UserID b) (Title b)
                (Description b) (StartTime b) (EndTime b))
      as [[e He]|(_ & _ & _ & He)];
      rewrite He in H2; [discriminate|].
    injection H2 as <- <-. simpl. unfold next_rowid. lia. }
  assert (M : forall l t, sqlite_sequence t <= sqlite_sequence (run t l)).
  { induction l as [|o l IH]; intros t; simpl; [lia|].
    specialize (IH (step t o)).
    assert (sqlite_sequence t <= sqlite_sequence (step t o)); [|lia].
    destruct o as [n x|n x|i u]; simpl.
    - unfold CreateAppointment.
      destruct (insert_returning_inv t n (UserID x) (Title x) (Description x)
                  (StartTime x) (EndTime x)) as [[e He]|(_ & _ & _ & He)];
        rewrite He; simpl; [lia|unfold next_rowid; lia].
    - unfold UpdateAppointment, update_returning.
      destruct (existsb _ _); simpl; [|lia].
      destruct (check_constraint _ _); simpl; lia.
    - unfold DeleteAppointment, delete_exec. destruct (_ =? 0); simpl; lia. }
  specialize (M ops s1). lia.
Qed.

Lemma later_create_gets_larger_id_witness :
  let a := mkAppointment 0 1 "Standup" "" (mkTime 10 0) (mkTime 20 0) zero zero in
  let s := mkStore false [] [] 0 in
  let s1 := fst (fst (CreateAppointment s (mkTime 5 0) a)) in
  let a1 := snd (fst (CreateAppointment s (mkTime 5 0) a)) in
  let ops := [OpDelete 1 1] in
  let a2 := snd (fst (CreateAppointment (run s1 ops) (mkTime 6 0) a)) in
  appointments (run s1 ops) = [] /\ ID a1 < ID a2.
Proof.
  intros a s s1 a1 ops a2. split; [reflexivity|].
  apply (later_create_gets_larger_id s (mkTime 5 0) a s1 a1 ops (mkTime 6 0) a
           (fst (fst (CreateAppointment (run s1 ops) (mkTime 6 0) a))) a2);
    reflexivity.
Defined.

(** ** Get *)

Lemma find_by_id_unique rows r :
  NoDup (map ID rows) -> In r rows ->
  find (fun x => ID x =? ID r) rows = Some r.
Proof.
  induction rows as [|x rows IH]; simpl; intros Hn Hin; [destruct Hin|].
  inversion Hn as [|? ? Hx Hrest]; subst.
  destruct Hin as [->|Hin].
  - now rewrite Z.eqb_refl.
  - destruct (Z.eqb_spec (ID x) (ID r)) as [E|E]; [|now apply IH].
    exfalso. apply Hx. rewrite E. now apply in_map.
Qed.

Lemma GetAppointment_of_stored s r :
  ids_unique s -> In r (appointments s) ->
  GetAppointment s (ID r) = (Some r, None).
Proof.
  intros Hu Hr. unfold GetAppointment, select_by_id.
  rewrite (find_by_id_unique _ _ Hu Hr). now rewrite Appointment_eta.
Qed.

(** What [GetAppointment] returns is a stored row with the id asked
    for; and where ids are unique, asking for the id of a stored row
    returns that row, every field as stored, with a nil error. *)
Theorem GetAppointment_sound_complete s :
  (forall id r, GetAppointment s id = (Some r, None) ->
                In r (appointments s) /\ ID r = id)
  /\ (ids_unique s ->
      forall r, In r (appointments s) ->
                GetAppointment s (ID r) = (Some r, None)).
Proof.
  unfold GetAppointment, select_by_id. split.
  - intros id r.
    destruct (find _ _) as [x|] eqn:F; [|discriminate].
    rewrite Appointment_eta. intros [= <-].
    apply find_some in F. rewrite Z.eqb_eq in F. exact F.
  - intros Hu r Hr. now apply GetAppointment_of_stored.
Qed.

Lemma GetAppointment_sound_complete_witness :
  let r1 := mkAppointment 1 1 "Standup" "" (mkTime 10 0) (mkTime 20 0)
              (mkTime 5 0) (mkTime 5 0) in
  let r2 := mkAppointment 2 3 "Review" "q1" (mkTime 30 0) (mkTime 40 0)
              (mkTime 6 0) (mkTime 7 0) in
  GetAppointment (mkStore false [] [r1; r2] 2) 2 = (Some r2, None).
Proof.
  intros r1 r2.
  assert (Hu : ids_unique (mkStore false [] [r1; r2] 2)).
  { repeat constructor; simpl; intuition discriminate. }
  assert (Hin : In r2 (appointments (mkStore false [] [r1; r2] 2))).
  { simpl. auto. }
  exact (proj2 (GetAppointment_sound_complete (mkStore false [] [r1; r2] 2))
           Hu r2 Hin).
Defined.

(** ** Update *)

Lemma existsb_owned_iff s id uid :
  existsb (owned id uid) (appointments s) = true <-> has_owned_row s id uid.
Proof.
  unfold has_owned_row, owned. rewrite existsb_exists.
  split; intros (r & Hr & H); exists r; split; auto.
  - apply andb_true_iff in H. now rewrite !Z.eqb_eq in H.
  - destruct H as [-> ->]. now rewrite !Z.eqb_refl.
Qed.



Lemma find_map_other id (f : Appointment -> Appointment) rows :
  (forall r, ID (f r) = ID r) ->
  (forall r, ID r <> id -> f r = r) ->
  forall target, target <> id ->
  find (fun x => ID x =? target) (map f rows)
  = find (fun x => ID x =? target) rows.
Proof.
  intros Hid Hother target Ht.
  induction rows as [|x rows IH]; simpl; auto.
  rewrite Hid. destruct (Z.eqb_spec (ID x) target) as [E|E]; auto.
  rewrite Hother; [reflexivity|congruence].
Qed.

(** After a successful update on a store with unique ids, a get on the
    updated id returns the row with the caller's title, description,
    start and end, the id and owner it had, the creation time it had,
    and the clock reading as update time; a get on any other id
    returns what it returned before; and the table has the same ids in
    the same order. *)
Theorem update_then_get s now a s' a' :
  UpdateAppointment s now a = (s', a', None) ->
  ids_unique s ->
  (exists old,
      GetAppointment s (ID a) = (Some old, None)
      /\ UserID old = UserID a
      /\ GetAppointment s' (ID a)
         = (Some (mkAppointment (ID a) (UserID a) (Title a) (Description a)
                    (StartTime a) (EndTime a) (CreatedAt old)
                    (CURRENT_TIMESTAMP now)), None))
  /\ (forall id, id <> ID a -> GetAppointment s' id = GetAppointment s id)
  /\ map ID (appointments s') = map ID (appointments s)
  /\ sqlite_sequence s' = sqlite_sequence s.
Proof.
  intros H Hu.
  unfold UpdateAppointment, update_returning in H.
  destruct (existsb _ _) eqn:Ex; [|discriminate].
  destruct (check_constraint _ _); [|discriminate].
  apply existsb_owned_iff in Ex. destruct Ex as (old & Hin & Hid & Huid).
  injection H as <- <-. simpl.
  split; [|split; [|split]].
  - exists old. split; [|split; [exact Huid|]].
    + rewrite <- Hid. now apply GetAppointment_of_stored.
    + pose (new := mkAppointment (ID a) (UserID a) (Title a) (Description a)
                     (StartTime a) (EndTime a) (CreatedAt old)
                     (CURRENT_TIMESTAMP now)).
      change (ID a) with (ID new) at 1.
      apply (GetAppointment_of_stored
               (mkStore (foreign_keys s) (users s) _ (sqlite_sequence s)) new).
      * unfold ids_unique; simpl. now rewrite update_keeps_ids.
      * simpl. apply in_map_iff. exists old. split; auto.
        unfold owned. rewrite Hid, Huid, !Z.eqb_refl. reflexivity.
  - intros id Hne. unfold GetAppointment, select_by_id; simpl.
    rewrite (find_map_other (ID a)); auto.
    + intros r. now destruct (owned _ _ r).
    + intros r Hr. unfold owned.
      destruct (Z.eqb_spec (ID r) (ID a)); [contradiction|reflexivity].
  - apply update_keeps_ids.
  - reflexivity.
Qed.

Lemma update_then_get_witness :
  let r1 := mkAppointment 1 1 "Standup" "" (mkTime 10 0) (mkTime 20 0)
              (mkTime 5 0) (mkTime 5 0) in
  let r2 := mkAppointment 2 1 "Review" "q1" (mkTime 30 0) (mkTime 40 0)
              (mkTime 6 0) (mkTime 7 0) in
  let s := mkStore false [] [r1; r2] 2 in
  let a := mkAppointment 2 1 "Review" "q2" (mkTime 50 0) (mkTime 60 0) zero zero in
  let s' := fst (fst (UpdateAppointment s (mkTime 9 500) a)) in
  GetAppointment s' 1 = GetAppointment s 1
  /\ map ID (appointments s') = [1; 2].
Proof.
  intros r1 r2 s a s'.
  assert (Hu : ids_unique s).
  { repeat constructor; simpl; intuition discriminate. }
  pose proof (update_then_get s (mkTime 9 500) a s'
                (snd (fst (UpdateAppointment s (mkTime 9 500) a)))
                eq_refl Hu) as (_ & Hother & Hids & _).
  split.
  - apply Hother. discriminate.
  - exact Hids.
Defined.

(** ** Delete *)

(** When a row with the id and owner given is stored, the delete
    returns a nil error; the rows left are exactly the stored rows
    other than those with that id and owner; a second delete with the
    same arguments is answered with the not-found-or-unauthorized error;
    and where ids are unique a get on the id then finds nothing. *)
Theorem delete_removes_the_row s id userID :
  has_owned_row s id userID ->
  let s' := fst (DeleteAppointment s id userID) in
  snd (DeleteAppointment s id userID) = None
  /\ (forall r, In r (appointments s') <->
                In r (appointments s) /\ ~ (ID r = id /\ UserID r = userID))
  /\ sqlite_sequence s' = sqlite_sequence s
  /\ DeleteAppointment s' id userID = (s', Some ErrNotFoundOrUnauthorized)
  /\ (ids_unique s -> GetAppointment s' id = (None, None)).
Proof.
  intros (row & Hrow & Hid & Huid).
  assert (Ho : forall r, owned id userID r = true <-> ID r = id /\ UserID r = userID).
  { intros r. unfold owned. now rewrite andb_true_iff, !Z.eqb_eq. }
  assert (Hrest : forall r,
             In r (filter (fun r => negb (owned id userID r)) (appointments s))
             <-> In r (appointments s) /\ ~ (ID r = id /\ UserID r = userID)).
  { intros r. rewrite filter_In, negb_true_iff, <- Ho.
    destruct (owned id userID r); intuition congruence. }
  assert (E : DeleteAppointment s id userID
              = (mkStore (foreign_keys s) (users s)
                   (filter (fun r => negb (owned id userID r)) (appointments s))
                   (sqlite_sequence s), None)).
  { unfold DeleteAppointment, delete_exec.
    assert (Hin : In row (filter (owned id userID) (appointments s))).
    { apply filter_In. split; auto. apply Ho. auto. }
    destruct (filter (owned id userID) (appointments s)) as [|x l];
      [destruct Hin|].
    destruct (Z.eqb_spec (Z.of_nat (List.length (x :: l))) 0) as [E|_];
      [simpl in E; lia|reflexivity]. }
  cbv zeta. rewrite E.
  simpl. split; [reflexivity|]. split; [exact Hrest|]. split; [reflexivity|].
  split.
  - unfold DeleteAppointment, delete_exec. simpl.
    rewrite (filter_none _ (owned id userID)).
    + simpl. rewrite filter_all; [reflexivity|].
      intros r Hr. apply filter_In in Hr. tauto.
    + intros r Hr. apply filter_In in Hr.
      destruct Hr as [_ Hr]. now apply negb_true_iff in Hr.
  - intros Hu. unfold GetAppointment, select_by_id; simpl.
    rewrite find_none_no_row; [reflexivity|].
    intros r Hr Hrid. apply Hrest in Hr. destruct Hr as [Hr Hn].
    apply Hn. split; [exact Hrid|].
    assert (Er : r = row).
    { pose proof (GetAppointment_of_stored s r Hu Hr) as G1.
      pose proof (GetAppointment_of_stored s row Hu Hrow) as G2.
      rewrite Hrid in G1. rewrite Hid in G2. congruence. }
    now rewrite Er.
Qed.

Lemma delete_removes_the_row_witness :
  let r1 := mkAppointment 1 1 "Standup" "" (mkTime 10 0) (mkTime 20 0)
              (mkTime 5 0) (mkTime 5 0) in
  let r2 := mkAppointment 2 3 "Review" "q1" (mkTime 30 0) (mkTime 40 0)
              (mkTime 6 0) (mkTime 7 0) in
  let s := mkStore false [] [r1; r2] 2 in
  snd (DeleteAppointment s 2 3) = None
  /\ sqlite_sequence (fst (DeleteAppointment s 2 3)) = 2.
Proof.
  intros r1 r2 s.
  assert (Hh : has_owned_row s 2 3).
  { exists r2. simpl. auto. }
  pose proof (delete_removes_the_row s 2 3 Hh) as (H1 & _ & H3 & _).
  split; [exact H1 | exact H3].
Defined.

(** ** More on [ListAppointments] *)





(** The appointment a successful create returns is listed for its
    owner in the window that is exactly its own interval. *)
Theorem create_then_list s now a s' a' :
  CreateAppointment s now a = (s', a', None) ->
  In a' (fst (ListAppointments s' (UserID a) (StartTime a) (EndTime a))).
Proof.
  unfold CreateAppointment. intros H.
  destruct (insert_returning_inv s now (UserID a) (Title a) (Description a)
              (StartTime a) (EndTime a)) as [[e He]|(_ & _ & _ & He)];
    rewrite He in H; [discriminate|].
  injection H as <- <-.
  rewrite ListAppointments_eq. simpl.
  apply (Permutation_in _ (Permutation_sym (order_by_start_time_perm _))).
  apply filter_In. split.
  - apply in_or_app. right. simpl. auto.
  - unfold fully_containedb. simpl.
    now rewrite Z.eqb_refl, Before_irrefl, After_irrefl.
Qed.

Lemma create_then_list_witness :
  let s := mkStore false [] [] 0 in
  let a := mkAppointment 0 1 "Standup" "" (mkTime 10 0) (mkTime 20 0) zero zero in
  In (mkAppointment 1 1 "Standup" "" (mkTime 10 0) (mkTime 20 0)
        (mkTime 7 0) (mkTime 7 0))
     (fst (ListAppointments (fst (fst (CreateAppointment s (mkTime 7 9) a)))
             1 (mkTime 10 0) (mkTime 20 0))).
Proof.
  intros s a.
  apply (create_then_list s (mkTime 7 9) a
           (fst (fst (CreateAppointment s (mkTime 7 9) a)))
           (snd (fst (CreateAppointment s (mkTime 7 9) a)))).
  reflexivity.
Defined.

(** ** [Validate] against the CHECK constraint *)



(** * Further properties of the handlers *)

(** ** The three mutations, case by case *)

Lemma CreateAppointment_cases s now a :
  (insertable s (UserID a) (StartTime a) (EndTime a)
   /\ CreateAppointment s now a
      = (mkStore (foreign_keys s) (users s)
           (appointments s ++
              [mkAppointment (next_rowid s) (UserID a) (Title a) (Description a)
                 (StartTime a) (EndTime a)
                 (CURRENT_TIMESTAMP now) (CURRENT_TIMESTAMP now)])
           (next_rowid s),
         mkAppointment (next_rowid s) (UserID a) (Title a) (Description a)
           (StartTime a) (EndTime a)
           (CURRENT_TIMESTAMP now) (CURRENT_TIMESTAMP now),
         None))
  \/ (~ insertable s (UserID a) (StartTime a) (EndTime a)
      /\ exists e, CreateAppointment s now a = (s, a, Some e)).
Proof.
  unfold CreateAppointment.
  destruct (insert_returning_inv s now (UserID a) (Title a) (Description a)
              (StartTime a) (EndTime a)) as [[e He]|(Hc & Hk & Hr & He)].
  - right. split.
    + apply (proj1 (insert_returning_err_iff s now (UserID a) (Title a)
                      (Description a) (StartTime a) (EndTime a))). eauto.
    + rewrite He. eauto.
  - left. rewrite He. split; [|reflexivity]. repeat split; auto.
Qed.


Lemma DeleteAppointment_cases s id uid :
  (has_owned_row s id uid
   /\ DeleteAppointment s id uid
      = (mkStore (foreign_keys s) (users s)
           (filter (fun r => negb (owned id uid r)) (appointments s))
           (sqlite_sequence s), None))
  \/ (no_owned_row s id uid
      /\ DeleteAppointment s id uid = (s, Some ErrNotFoundOrUnauthorized)).
Proof.
  destruct (existsb (owned id uid) (appointments s)) eqn:Ex.
  - left. apply existsb_owned_iff in Ex. split; [exact Ex|].
    destruct Ex as (row & Hrow & Hid & Huid).
    unfold DeleteAppointment, delete_exec.
    assert (Hin : In row (filter (owned id uid) (appointments s))).
    { apply filter_In. split; auto. unfold owned.
      now rewrite Hid, Huid, !Z.eqb_refl. }
    destruct (filter (owned id uid) (appointments s)) as [|x l];
      [destruct Hin|].
    destruct (Z.eqb_spec (Z.of_nat (List.length (x :: l))) 0) as [E|_];
      [simpl in E; lia|reflexivity].
  - right.
    assert (Hno : no_owned_row s id uid).
    { intros r Hr [Hid Huid].
      assert (existsb (owned id uid) (appointments s) = true); [|congruence].
      apply existsb_owned_iff. exists r. auto. }
    split; [exact Hno|].
    unfold DeleteAppointment, delete_exec.
    pose proof (owned_false_of_no_owned_row _ _ _ Hno) as Hf.
    rewrite (filter_none _ (owned id uid)) by exact Hf.
    rewrite filter_all.
    + simpl. now rewrite Store_eta.
    + intros r Hr. now rewrite (Hf r Hr).
Qed.

(** ** Other owners' rows *)

Lemma owned_UserID id uid r : owned id uid r = true -> UserID r = uid.
Proof.
  unfold owned. rewrite andb_true_iff, !Z.eqb_eq. tauto.
Qed.

Lemma others_after_update u id title desc st en ts rows :
  filter (fun r => negb (UserID r =? u))
    (map (fun r => if owned id u r
                   then mkAppointment (ID r) (UserID r) title desc
                          st en (CreatedAt r) ts
                   else r) rows)
  = filter (fun r => negb (UserID r =? u)) rows.
Proof.
  induction rows as [|x rows IH]; simpl; [reflexivity|].
  destruct (owned id u x) eqn:Eo; simpl.
  - apply owned_UserID in Eo. rewrite Eo, Z.eqb_refl. simpl. exact IH.
  - now rewrite IH.
Qed.

Lemma others_after_delete u id rows :
  filter (fun r => negb (UserID r =? u))
    (filter (fun r => negb (owned id u r)) rows)
  = filter (fun r => negb (UserID r =? u)) rows.
Proof.
  induction rows as [|x rows IH]; simpl; [reflexivity|].
  destruct (owned id u x) eqn:Eo; simpl.
  - apply owned_UserID in Eo. rewrite Eo, Z.eqb_refl. simpl. exact IH.
  - now rewrite IH.
Qed.

Lemma CreateAppointment_others s now a :
  rows_of_others (UserID a) (fst (fst (CreateAppointment s now a)))
  = rows_of_others (UserID a) s.
Proof.
  destruct (CreateAppointment_cases s now a) as [[_ E]|[_ [e E]]];
    rewrite E; simpl; [|reflexivity].
  unfold rows_of_others; simpl. rewrite filter_app. simpl.
  rewrite Z.eqb_refl. simpl. apply app_nil_r.
Qed.

Lemma UpdateAppointment_others s now a :
  rows_of_others (UserID a) (fst (fst (UpdateAppointment s now a)))
  = rows_of_others (UserID a) s.
Proof.
  unfold UpdateAppointment, update_returning.
  destruct (existsb _ _); simpl; [|reflexivity].
  destruct (check_constraint _ _); simpl; [|reflexivity].
  unfold rows_of_others; simpl. apply others_after_update.
Qed.

Lemma DeleteAppointment_others s id uid :
  rows_of_others uid (fst (DeleteAppointment s id uid)) = rows_of_others uid s.
Proof.
  destruct (DeleteAppointment_cases s id uid) as [[_ E]|[_ E]];
    rewrite E; simpl; [|reflexivity].
  unfold rows_of_others; simpl. apply others_after_delete.
Qed.

(** A create, update or delete made for one owner leaves the rows of
    every other owner as they were: the same rows, in the same order,
    whether the call succeeds or fails. *)
Theorem mutations_keep_rows_of_others s now a id userID :
  rows_of_others (UserID a) (fst (fst (CreateAppointment s now a)))
  = rows_of_others (UserID a) s
  /\ rows_of_others (UserID a) (fst (fst (UpdateAppointment s now a)))
     = rows_of_others (UserID a) s
  /\ rows_of_others userID (fst (DeleteAppointment s id userID))
     = rows_of_others userID s.
Proof.
  split; [|split].
  - apply CreateAppointment_others.
  - apply UpdateAppointment_others.
  - apply DeleteAppointment_others.
Qed.

(** None of the five API handlers changes, adds or removes a row that
    belongs to an owner other than the fixed user 1. *)
Theorem handlers_keep_rows_of_others h s now r :
  In h api_handlers ->
  rows_of_others 1 (Server_db (fst (h s now r))) = rows_of_others 1 (Server_db s).
Proof.
  unfold api_handlers. simpl.
  intros [<-|[<-|[<-|[<-|[<-|[]]]]]].
  - reflexivity.
  - unfold handleCreateAppointment.
    destruct (Body r) as [req|]; [|reflexivity].
    match goal with
    | |- context [CreateAppointment ?d ?n ?a] =>
        pose proof (CreateAppointment_others d n a) as H;
        destruct (CreateAppointment d n a) as [[d' a'] [e|]]
    end; exact H.
  - unfold handleGetAppointment.
    destruct (ParseInt (vars_id r)) as [id|]; [|reflexivity].
    destruct (GetAppointment (Server_db s) id) as [[a|] [e|]]; reflexivity.
  - unfold handleUpdateAppointment.
    destruct (ParseInt (vars_id r)) as [id|]; [|reflexivity].
    destruct (Body r) as [req|]; [|reflexivity].
    match goal with
    | |- context [UpdateAppointment ?d ?n ?a] =>
        pose proof (UpdateAppointment_others d n a) as H;
        destruct (UpdateAppointment d n a) as [[d' a'] [e|]]
    end; exact H.
  - unfold handleDeleteAppointment.
    destruct (ParseInt (vars_id r)) as [id|]; [|reflexivity].
    pose proof (DeleteAppointment_others (Server_db s) id 1) as H.
    destruct (DeleteAppointment (Server_db s) id 1) as [d' [e|]]; exact H.
Qed.

Lemma handlers_keep_rows_of_others_witness :
  let mine := mkAppointment 1 1 "Standup" "" (mkTime 10 0) (mkTime 20 0)
                (mkTime 5 0) (mkTime 5 0) in
  let theirs := mkAppointment 2 7 "Review" "" (mkTime 30 0) (mkTime 40 0)
                  (mkTime 6 0) (mkTime 6 0) in
  let s := mkServer (mkStore false [] [mine; theirs] 2) [] in
  rows_of_others 1
    (Server_db (fst (handleDeleteAppointment s zero (mkHTTPRequest "2" "" None))))
  = [theirs].
Proof.
  intros mine theirs s.
  rewrite (handlers_keep_rows_of_others handleDeleteAppointment s zero
             (mkHTTPRequest "2" "" None)).
  - reflexivity.
  - simpl. tauto.
Defined.

(** ** Bad requests and gateway calls *)

(** A handler answers 400 exactly when the route variable is not a
    decimal 64-bit integer (get, update, delete) or the body does not
    decode (create, update); the list handler never answers 400. *)
Theorem bad_request_iff s now r :
  status (snd (handleListAppointments s now r)) <> StatusBadRequest
  /\ (status (snd (handleCreateAppointment s now r)) = StatusBadRequest
      <-> Body r = None)
  /\ (status (snd (handleGetAppointment s now r)) = StatusBadRequest
      <-> ParseInt (vars_id r) = None)
  /\ (status (snd (handleUpdateAppointment s now r)) = StatusBadRequest
      <-> ParseInt (vars_id r) = None \/ Body r = None)
  /\ (status (snd (handleDeleteAppointment s now r)) = StatusBadRequest
      <-> ParseInt (vars_id r) = None).
Proof.
  split; [discriminate|]. split; [|split; [|split]].
  - unfold handleCreateAppointment.
    destruct (Body r) as [req|]; [|simpl; tauto].
    destruct (CreateAppointment _ _ _) as [[d a'] [e|]]; simpl;
      split; discriminate.
  - unfold handleGetAppointment.
    destruct (ParseInt (vars_id r)) as [id|]; [|simpl; tauto].
    destruct (GetAppointment _ _) as [[a|] [e|]]; simpl; split; discriminate.
  - unfold handleUpdateAppointment.
    destruct (ParseInt (vars_id r)) as [id|]; [|simpl; tauto].
    destruct (Body r) as [req|]; [|simpl; tauto].
    destruct (UpdateAppointment _ _ _) as [[d a'] [e|]]; simpl;
      (split; [discriminate|intros [H|H]; discriminate]).
  - unfold handleDeleteAppointment.
    destruct (ParseInt (vars_id r)) as [id|]; [|simpl; tauto].
    destruct (DeleteAppointment _ _ _) as [d [e|]]; simpl; split; discriminate.
Qed.

Lemma bad_request_iff_witness :
  status (snd (handleDeleteAppointment
                 (mkServer (mkStore false [] [] 0) []) zero
                 (mkHTTPRequest "12a" "" None))) = StatusBadRequest
  /\ status (snd (handleCreateAppointment
                    (mkServer (mkStore false [] [] 0) []) zero
                    (mkHTTPRequest "" "" None))) = StatusBadRequest.
Proof.
  split.
  - apply (proj2 (proj2 (proj2 (proj2
             (bad_request_iff (mkServer (mkStore false [] [] 0) []) zero
                (mkHTTPRequest "12a" "" None)))))).
    reflexivity.
  - apply (proj1 (proj2
             (bad_request_iff (mkServer (mkStore false [] [] 0) []) zero
                (mkHTTPRequest "" "" None)))).
    reflexivity.
Defined.

(** Every handler makes at most one gateway call per request, added at
    the end of the log; a request answered with 400 makes none; and a
    request that makes none leaves the store as it was. *)
Theorem handlers_call_gateway_at_most_once h s now r :
  In h api_handlers ->
  exists made,
    Server_calls (fst (h s now r)) = (Server_calls s ++ made)%list
    /\ (List.length made <= 1)%nat
    /\ (status (snd (h s now r)) = StatusBadRequest -> made = [])
    /\ (made = [] -> Server_db (fst (h s now r)) = Server_db s).
Proof.
  unfold api_handlers. simpl.
  intros [<-|[<-|[<-|[<-|[<-|[]]]]]].
  - exists []. simpl. rewrite app_nil_r. repeat split; auto.
  - unfold handleCreateAppointment.
    destruct (Body r) as [req|].
    + destruct (CreateAppointment _ _ _) as [[d a'] [e|]]; simpl;
        eexists; (split; [reflexivity|]); simpl;
        repeat split; auto; discriminate.
    + exists []. simpl. rewrite app_nil_r. repeat split; auto.
  - unfold handleGetAppointment.
    destruct (ParseInt (vars_id r)) as [id|].
    + destruct (GetAppointment _ _) as [[a|] [e|]]; simpl;
        eexists; (split; [reflexivity|]); simpl;
        repeat split; auto; discriminate.
    + exists []. simpl. rewrite app_nil_r. repeat split; auto.
  - unfold handleUpdateAppointment.
    destruct (ParseInt (vars_id r)) as [id|].
    + destruct (Body r) as [req|].
      * destruct (UpdateAppointment _ _ _) as [[d a'] [e|]]; simpl;
          eexists; (split; [reflexivity|]); simpl;
          repeat split; auto; discriminate.
      * exists []. simpl. rewrite app_nil_r. repeat split; auto.
    + exists []. simpl. rewrite app_nil_r. repeat split; auto.
  - unfold handleDeleteAppointment.
    destruct (ParseInt (vars_id r)) as [id|].
    + destruct (DeleteAppointment _ _ _) as [d [e|]]; simpl;
        eexists; (split; [reflexivity|]); simpl;
        repeat split; auto; discriminate.
    + exists []. simpl. rewrite app_nil_r. repeat split; auto.
Qed.

Lemma handlers_call_gateway_at_most_once_witness :
  exists made,
    Server_calls (fst (handleGetAppointment
                         (mkServer (mkStore false [] [] 0) [CallGetAppointment 3])
                         zero (mkHTTPRequest "4" "" None)))
    = ([CallGetAppointment 3] ++ made)%list
    /\ (List.length made <= 1)%nat.
Proof.
  destruct (handlers_call_gateway_at_most_once handleGetAppointment
              (mkServer (mkStore false [] [] 0) [CallGetAppointment 3])
              zero (mkHTTPRequest "4" "" None)) as (made & H1 & H2 & _).
  - simpl. tauto.
  - exists made. split; [exact H1 | exact H2].
Defined.

(** ** What the handlers answer *)



(** What a 201 shows is what a GET shows next: after a POST answered
    with 201, a GET whose route variable parses to the id in the 201
    body answers 200 with the same appointment. *)
Theorem post_then_get s now r s1 resp :
  handleCreateAppointment s now r = (s1, resp) ->
  status resp = StatusCreated ->
  exists a,
    payload resp = AppointmentPtr a
    /\ forall now' r',
         ParseInt (vars_id r') = Some (ID a) ->
         snd (handleGetAppointment s1 now' r')
         = respondJSON StatusOK (AppointmentPtr a).
Proof.
  unfold handleCreateAppointment.
  destruct (Body r) as [req|]; [|intros [= <- <-]; discriminate].
  match goal with
  | |- context [CreateAppointment ?d ?n ?a] =>
      destruct (CreateAppointment_cases d n a) as [[Hi E]|[Hi [e E]]];
      rewrite E
  end; simpl; [|intros [= <- <-]; discriminate].
  intros [= <- <-] _. simpl. eexists. split; [reflexivity|].
  intros now' r' Hid. unfold handleGetAppointment. rewrite Hid. simpl.
  unfold GetAppointment, select_by_id. simpl.
  rewrite find_app_fresh; [reflexivity| |reflexivity].
  intros x Hx. pose proof (max_rowid_ge _ _ Hx). unfold next_rowid. lia.
Qed.

Lemma post_then_get_witness :
  let s := mkServer (mkStore false [] [] 0) [] in
  let r := mkHTTPRequest "" ""
             (Some (mkRequest "Standup" "" (mkTime 63876416400 0)
                      (mkTime 63876417300 0))) in
  let out := handleCreateAppointment s (mkTime 63876400000 0) r in
  exists a,
    payload (snd out) = AppointmentPtr a
    /\ forall now' r',
         ParseInt (vars_id r') = Some (ID a) ->
         snd (handleGetAppointment (fst out) now' r')
         = respondJSON StatusOK (AppointmentPtr a).
Proof.
  intros s r out.
  apply (post_then_get s (mkTime 63876400000 0) r (fst out) (snd out));
    reflexivity.
Defined.

(** GET /api/appointments/{id} with an id that parses answers 200
    exactly when some stored row has that id, whoever owns it: the
    handler makes no ownership check.  The body is then a stored row
    with that id, and the store is as it was. *)
Theorem handleGetAppointment_status s now r id :
  ParseInt (vars_id r) = Some id ->
  let out := handleGetAppointment s now r in
  (status (snd out) = StatusOK
   <-> exists row, In row (appointments (Server_db s)) /\ ID row = id)
  /\ (status (snd out) = StatusOK ->
      exists row, In row (appointments (Server_db s)) /\ ID row = id
                  /\ payload (snd out) = AppointmentPtr row)
  /\ Server_db (fst out) = Server_db s.
Proof.
  intros Hid. unfold handleGetAppointment. rewrite Hid.
  unfold GetAppointment, select_by_id.
  destruct (find (fun x => ID x =? id) (appointments (Server_db s)))
    as [row|] eqn:F; cbv zeta; simpl.
  - apply find_some in F. rewrite Z.eqb_eq in F.
    rewrite Appointment_eta.
    split; [split; [intros _; exists row; exact F|reflexivity]|].
    split; [|reflexivity]. intros _. exists row. tauto.
  - split; [split; [discriminate|]|split; [discriminate|reflexivity]].
    intros (row & Hin & Hrow).
    pose proof (find_none _ _ F row Hin) as Hn. simpl in Hn.
    rewrite Hrow, Z.eqb_refl in Hn. discriminate.
Qed.

Lemma handleGetAppointment_status_witness :
  let theirs := mkAppointment 2 7 "Review" "" (mkTime 30 0) (mkTime 40 0)
                  (mkTime 6 0) (mkTime 6 0) in
  let s := mkServer (mkStore false [] [theirs] 2) [] in
  status (snd (handleGetAppointment s zero (mkHTTPRequest "2" "" None)))
  = StatusOK.
Proof.
  intros theirs s.
  apply (proj1 (handleGetAppointment_status s zero
                  (mkHTTPRequest "2" "" None) 2 eq_refl)).
  exists theirs. simpl. auto.
Defined.

(** DELETE /api/appointments/{id} with an id that parses answers 204
    with no body when user 1 owns a row with that id, and that row is
    then gone; otherwise (no such row, or a row of another owner) it
    answers 500, not 404, and the store is as it was. *)
Theorem handleDeleteAppointment_status s now r id :
  ParseInt (vars_id r) = Some id ->
  let out := handleDeleteAppointment s now r in
  (has_owned_row (Server_db s) id 1 ->
   snd out = respondJSON StatusNoContent NoData
   /\ no_owned_row (Server_db (fst out)) id 1)
  /\ (no_owned_row (Server_db s) id 1 ->
      snd out = respondError StatusInternalServerError
                  "Failed to delete appointment"
      /\ Server_db (fst out) = Server_db s)
  /\ (status (snd out) = StatusNoContent <-> has_owned_row (Server_db s) id 1).
Proof.
  intros Hid. unfold handleDeleteAppointment. rewrite Hid.
  destruct (DeleteAppointment_cases (Server_db s) id 1) as [[Hh E]|[Hno E]];
    rewrite E; cbv zeta; simpl.
  - split; [|split].
    + intros _. split; [reflexivity|].
      intros x Hx [Hxi Hxu]. apply filter_In in Hx. destruct Hx as [_ Hx].
      unfold owned in Hx. rewrite Hxi, Hxu, !Z.eqb_refl in Hx. discriminate.
    + intros Hno. exfalso. destruct Hh as (row & Hin & Hr).
      exact (Hno row Hin Hr).
    + tauto.
  - split; [|split].
    + intros (row & Hin & Hr). exfalso. exact (Hno row Hin Hr).
    + auto.
    + split; [discriminate|].
      intros (row & Hin & Hr). exfalso. exact (Hno row Hin Hr).
Qed.

Lemma handleDeleteAppointment_status_witness :
  let theirs := mkAppointment 2 7 "Review" "" (mkTime 30 0) (mkTime 40 0)
                  (mkTime 6 0) (mkTime 6 0) in
  let s := mkServer (mkStore false [] [theirs] 2) [] in
  snd (handleDeleteAppointment s zero (mkHTTPRequest "2" "" None))
  = respondError 500 "Failed to delete appointment".
Proof.
  intros theirs s.
  apply (proj1 (proj2 (handleDeleteAppointment_status s zero
                         (mkHTTPRequest "2" "" None) 2 eq_refl))).
  simpl. intros x [<-|[]] [_ H]. simpl in H. lia.
Defined.


